(** * validate.py: checking a JSON Schema document against the 2020-12 metaschema

    The script under [pkg/apis/fleet.cattle.io/v1alpha1/JSON/validate.py]
    opens one file, decodes it with [json.load], hands the decoded value to
    [Draft202012Validator.check_schema] and prints one of two messages.

    The embedding below follows the script statement by statement.  Python
    calls either return a value or raise an exception, so every computation
    lives in a small monad that reads the process's surroundings, records
    the observable events in order and carries the pending exception.  The
    two library entry points the script calls ([json.loads] behind
    [json.load], and [check_schema]) are not part of the repository; they
    are parameters of the model. *)

From Stdlib Require Import String Ascii List ZArith.
Import ListNotations.
Open Scope string_scope.
Set Warnings "-register-all".

(** ** Values produced by [json.load] *)

(** Python's decoder yields [None], [bool], [int], [float], [str], [list]
    and [dict].  A float is kept as the literal it was read from; a [dict]
    is an association list in insertion order. *)
Inductive json : Type :=
| JNull
| JBool (b : bool)
| JInt (n : Z)
| JFloat (literal : string)
| JString (s : string)
| JArray (items : list json)
| JObject (members : list (string * json)).

(** ** Exceptions and results *)

(** The exception classes that can reach the script: those of [open] and
    of reading the stream, the decoder's, the validator's [SchemaError]
    with its [message] attribute, and any other subclass of [Exception]. *)
Inductive exception : Type :=
| OSError (strerror : string)
| UnicodeDecodeError (reason : string)
| JSONDecodeError (msg : string)
| SchemaError (message : string)
| OtherException (cls msg : string).

Inductive result (A : Type) : Type :=
| Returns (a : A)
| Raises (e : exception).

Arguments Returns {A} a.
Arguments Raises {A} e.

(** ** The process's surroundings *)

(** A text stream as [open] returns it: reading it to the end gives the
    decoded text or raises. *)
Record file : Type := { read : result string }.

(** What a run can depend on: the command line, the environment variables
    and what [open] does for each path. *)
Record world : Type := {
  argv : list string;
  environ : list (string * string);
  fs_open : string -> result file
}.

(** ** Observable events *)

Inductive event : Type :=
| Open (path : string)
| Close (path : string)
| CheckSchema (schema : json)
| Print (text : string).

(** ** The monad of script computations *)

Definition M (A : Type) : Type := world -> list event * result A.

Definition ret {A : Type} (a : A) : M A :=
  fun _ => ([], Returns a).

Definition bind {A B : Type} (m : M A) (k : A -> M B) : M B :=
  fun w =>
    match m w with
    | (t, Returns a) => let (t', r) := k a w in ((t ++ t')%list, r)
    | (t, Raises e) => (t, Raises e)
    end.

Definition lift {A : Type} (r : result A) : M A :=
  fun _ => ([], r).

Definition emit (ev : event) : M unit :=
  fun _ => ([ev], Returns tt).

Notation "x <- m ;; k" := (bind m (fun x => k))
  (at level 61, m at next level, right associativity).
Notation "m ;; k" := (bind m (fun _ => k))
  (at level 61, right associativity).

(** [try: body except C as e: handler]: the handler table answers [None]
    for an exception no [except] clause matches, which then propagates. *)
Definition try_except {A : Type} (body : M A)
  (handler : exception -> option (M A)) : M A :=
  fun w =>
    match body w with
    | (t, Returns a) => (t, Returns a)
    | (t, Raises e) =>
        match handler e with
        | Some h => let (t', r) := h w in ((t ++ t')%list, r)
        | None => (t, Raises e)
        end
    end.

(** [with open(path) as f: body]: a failed [open] raises before the block
    is entered; once entered, the stream is closed on the way out whether
    the body returned or raised, and the file object's exit swallows
    nothing. *)
Definition with_open {A : Type} (path : string) (body : file -> M A) : M A :=
  fun w =>
    match fs_open w path with
    | Raises e => ([Open path], Raises e)
    | Returns f =>
        let (t, r) := body f w in (Open path :: (t ++ [Close path])%list, r)
    end.

(** ** Built-ins *)

Definition newline : string := String (ascii_of_nat 10) EmptyString.

(** [print] writes its arguments separated by one space, then a newline. *)
Definition print (args : list string) : M unit :=
  emit (Print (String.concat " " args ++ newline)).

(** ** The script *)

Section Script.

(** [json.loads]: text to value, or [JSONDecodeError]. *)
Variable json_loads : string -> result json.

(** [Draft202012Validator.check_schema]: returns, or raises. *)
Variable check_schema : json -> result unit.

(** [json.load(fp)] is [json.loads(fp.read())]. *)
Definition json_load (fp : file) : M json :=
  text <- lift (read fp) ;;
  lift (json_loads text).

Definition call_check_schema (schema : json) : M unit :=
  fun _ => ([CheckSchema schema], check_schema schema).

Definition schema_path : string := "fleet-combined.schema.json".

Definition valid_message : string :=
  "Schema is valid JSON Schema (Draft 2020-12).".

Definition invalid_prefix : string := "Schema is invalid:".

(** Lines 4 to 11 of the script. *)
Definition validate : M unit :=
  schema <- with_open schema_path (fun f => json_load f) ;;
  try_except
    (call_check_schema schema ;;
     print [valid_message])
    (fun e =>
       match e with
       | SchemaError message => Some (print [invalid_prefix; message])
       | _ => None
       end).

(** ** A run of the interpreter on the script *)

Record process : Type := {
  trace : list event;
  outcome : result unit
}.

Definition run (w : world) : process :=
  let (t, r) := validate w in {| trace := t; outcome := r |}.

End Script.

(** The interpreter exits with 0 when the module body ran to its end and
    with 1 when an exception was left uncaught. *)
Definition exit_status (p : process) : Z :=
  match outcome p with
  | Returns _ => 0
  | Raises _ => 1
  end.

Definition uncaught (p : process) : option exception :=
  match outcome p with
  | Returns _ => None
  | Raises e => Some e
  end.

Fixpoint printed (t : list event) : list string :=
  match t with
  | [] => []
  | Print text :: t' => text :: printed t'
  | _ :: t' => printed t'
  end.

Fixpoint opened (t : list event) : list string :=
  match t with
  | [] => []
  | Open path :: t' => path :: opened t'
  | _ :: t' => opened t'
  end.

Fixpoint checked (t : list event) : list json :=
  match t with
  | [] => []
  | CheckSchema schema :: t' => schema :: checked t'
  | _ :: t' => checked t'
  end.

Definition stdout (p : process) : string :=
  String.concat "" (printed (trace p)).

(** What opening the fixed path and reading the stream to its end yields
    in a given world. *)
Definition file_text (w : world) : result string :=
  match fs_open w schema_path with
  | Returns f => read f
  | Raises e => Raises e
  end.

(** The world [w] with the result of opening the fixed path replaced. *)
Definition retarget (w : world) (r : result file) : world :=
  {| argv := argv w;
     environ := environ w;
     fs_open := fun p => if String.eqb p schema_path then r else fs_open w p |}.

(** ** The metaschema check, as far as the spec describes it *)

(** [d.get(key)] on a [dict]. *)
Definition dict_get (key : string) (members : list (string * json))
  : option json :=
  match find (fun kv => String.eqb (fst kv) key) members with
  | Some kv => Some (snd kv)
  | None => None
  end.

Definition is_str (v : json) : bool :=
  match v with
  | JString _ => true
  | _ => false
  end.

Definition string_or_strings (v : json) : bool :=
  match v with
  | JString _ => true
  | JArray items => forallb is_str items
  | _ => false
  end.

Section MetaschemaCheck.

(** The verdict of the library on the schemas the spec says nothing about. *)
Variable rest : json -> result unit.

(** The [message] the library attaches to a violation: some text that is
    not empty. *)
Variable describe : json -> {m : string | m <> ""}.

(** Modelled from the spec: [Draft202012Validator.check_schema] is code of
    the jsonschema package, which is not among the repository's sources.
    The spec states two facts about it: the empty object is a legal schema
    (P6), and a [type] member must be a string or an array of strings, a
    violation raising a schema error that carries a non-empty message
    (P2).  On every other schema the verdict is left to [rest]. *)
Definition metaschema_check (schema : json) : result unit :=
  match schema with
  | JObject [] => Returns tt
  | JObject members =>
      match dict_get "type" members with
      | Some t =>
          if string_or_strings t then rest schema
          else Raises (SchemaError (proj1_sig (describe t)))
      | None => rest schema
      end
  | _ => rest schema
  end.

End MetaschemaCheck.

(** ** Sample documents and surroundings *)

Definition dquote : string := String (ascii_of_nat 34) EmptyString.

(** The document of P2, as text and as the value it stands for. *)
Definition type_123_text : string :=
  "{" ++ dquote ++ "type" ++ dquote ++ ": 123}".

Definition type_123 : json := JObject [("type", JInt 123)].

(** The document of P6. *)
Definition empty_object_text : string := "{}".

Definition empty_object : json := JObject [].

(** The truncated document of P3. *)
Definition truncated_text : string := "{" ++ dquote ++ "type" ++ dquote ++ ":".

(** A decoder defined on the documents above and on the bare literals;
    anything else is reported the way the decoder reports text it cannot
    read. *)
Definition sample_loads (text : string) : result json :=
  if String.eqb text empty_object_text then Returns empty_object
  else if String.eqb text type_123_text then Returns type_123
  else if String.eqb text "true" then Returns (JBool true)
  else if String.eqb text "false" then Returns (JBool false)
  else if String.eqb text "null" then Returns JNull
  else if String.eqb text "7" then Returns (JInt 7)
  else Raises (JSONDecodeError "Expecting value").

(** A validator that follows [metaschema_check] and, elsewhere, admits
    objects and booleans only. *)
Definition sample_rest (schema : json) : result unit :=
  match schema with
  | JObject _ | JBool _ => Returns tt
  | _ => Raises (SchemaError "not of type object, boolean")
  end.

Definition sample_describe (_ : json) : {m : string | m <> ""} :=
  exist _ "not valid under any of the given schemas"
    (fun H => eq_ind "not valid under any of the given schemas"
                (fun s => match s with EmptyString => False | _ => True end)
                I "" H).

Definition sample_check : json -> result unit :=
  metaschema_check sample_rest sample_describe.

(** A world whose working directory holds the schema file with the given
    text and nothing else. *)
Definition world_with (args : list string) (text : string) : world :=
  {| argv := args;
     environ := [];
     fs_open := fun p =>
       if String.eqb p schema_path then Returns {| read := Returns text |}
       else Raises (OSError "No such file or directory") |}.

(** A world whose working directory is empty. *)
Definition empty_world : world :=
  {| argv := [];
     environ := [];
     fs_open := fun _ => Raises (OSError "No such file or directory") |}.

(** ** Further observations on a run *)

(** The paths closed in the course of a run, in order. *)
Fixpoint closed (t : list event) : list string :=
  match t with
  | [] => []
  | Close path :: t' => path :: closed t'
  | _ :: t' => closed t'
  end.

(** The number of line breaks in a text, which is the number of lines a
    terminal shows for output that ends in one. *)
Fixpoint line_breaks (s : string) : nat :=
  match s with
  | EmptyString => 0
  | String c s' =>
      (if Ascii.eqb c (ascii_of_nat 10) then 1 else 0) + line_breaks s'
  end.

(** A validator that rejects everything with a message of two lines. *)
Definition two_line_check (_ : json) : result unit :=
  Raises (SchemaError ("unexpected keyword" ++ newline ++ "at the root")).






(** * Properties of the script *)

Section Properties.

Variable json_loads : string -> result json.
Variable check_schema : json -> result unit.

(** ** The shape of a run *)

(** The events and the outcome of the module body, by what each call
    answers: the body is straight-line code, so a run is settled by the
    results of [open], of reading, of decoding and of the check. *)
Lemma validate_unfold (w : world) :
  validate json_loads check_schema w =
  match fs_open w schema_path with
  | Raises e => ([Open schema_path], Raises e)
  | Returns f =>
      match read f with
      | Raises e => ([Open schema_path; Close schema_path], Raises e)
      | Returns text =>
          match json_loads text with
          | Raises e => ([Open schema_path; Close schema_path], Raises e)
          | Returns schema =>
              match check_schema schema with
              | Returns _ =>
                  ([Open schema_path; Close schema_path; CheckSchema schema;
                    Print (valid_message ++ newline)], Returns tt)
              | Raises (SchemaError m) =>
                  ([Open schema_path; Close schema_path; CheckSchema schema;
                    Print (invalid_prefix ++ " " ++ m ++ newline)], Returns tt)
              | Raises e =>
                  ([Open schema_path; Close schema_path; CheckSchema schema],
                   Raises e)
              end
          end
      end
  end.
Proof.
  unfold validate, bind, with_open, json_load, bind, lift, try_except,
    call_check_schema, print, emit.
  destruct (fs_open w schema_path) as [f | e]; [ | reflexivity ].
  destruct (read f) as [text | e]; [ | reflexivity ].
  destruct (json_loads text) as [schema | e]; [ | reflexivity ].
  cbn [app].
  destruct (check_schema schema) as [ [] | e ]; [ reflexivity | ].
  destruct e; reflexivity.
Qed.

(** Splitting [file_text] back into the two calls it stands for. *)
Lemma file_text_returns (w : world) (text : string) :
  file_text w = Returns text ->
  exists f, fs_open w schema_path = Returns f /\ read f = Returns text.
Proof.
  unfold file_text. intros H.
  destruct (fs_open w schema_path) as [f | e] eqn:Hopen; [ | discriminate ].
  exists f. split; [ reflexivity | exact H ].
Qed.

Lemma file_text_raises (w : world) (e : exception) :
  file_text w = Raises e ->
  fs_open w schema_path = Raises e \/
  exists f, fs_open w schema_path = Returns f /\ read f = Raises e.
Proof.
  unfold file_text. intros H.
  destruct (fs_open w schema_path) as [f | e'] eqn:Hopen.
  - right. exists f. split; [ reflexivity | exact H ].
  - left. injection H as ->. reflexivity.
Qed.

(** The run when the file cannot be read: the exception of [open] or of
    reading leaves the module body at once. *)
Lemma run_unreadable (w : world) (e : exception) :
  file_text w = Raises e ->
  outcome (run json_loads check_schema w) = Raises e /\
  printed (trace (run json_loads check_schema w)) = [] /\
  checked (trace (run json_loads check_schema w)) = [].
Proof.
  intros H. unfold run. rewrite validate_unfold.
  destruct (file_text_raises w e H) as [Hopen | [f [Hopen Hread]]].
  - rewrite Hopen. cbn. auto.
  - rewrite Hopen, Hread. cbn. auto.
Qed.

(** The run when the text is read and the decoder raises. *)
Lemma run_undecodable (w : world) (text : string) (e : exception) :
  file_text w = Returns text ->
  json_loads text = Raises e ->
  run json_loads check_schema w =
  {| trace := [Open schema_path; Close schema_path]; outcome := Raises e |}.
Proof.
  intros Htext Hloads. unfold run. rewrite validate_unfold.
  destruct (file_text_returns w text Htext) as [f [Hopen Hread]].
  rewrite Hopen, Hread, Hloads. reflexivity.
Qed.

(** The run when the decoded value passes the check. *)
Lemma run_check_returns (w : world) (text : string) (schema : json) :
  file_text w = Returns text ->
  json_loads text = Returns schema ->
  check_schema schema = Returns tt ->
  run json_loads check_schema w =
  {| trace := [Open schema_path; Close schema_path; CheckSchema schema;
               Print (valid_message ++ newline)];
     outcome := Returns tt |}.
Proof.
  intros Htext Hloads Hcheck. unfold run. rewrite validate_unfold.
  destruct (file_text_returns w text Htext) as [f [Hopen Hread]].
  rewrite Hopen, Hread, Hloads, Hcheck. reflexivity.
Qed.

(** The run when the check raises [SchemaError]. *)
Lemma run_check_schema_error (w : world) (text : string) (schema : json)
  (m : string) :
  file_text w = Returns text ->
  json_loads text = Returns schema ->
  check_schema schema = Raises (SchemaError m) ->
  run json_loads check_schema w =
  {| trace := [Open schema_path; Close schema_path; CheckSchema schema;
               Print (invalid_prefix ++ " " ++ m ++ newline)];
     outcome := Returns tt |}.
Proof.
  intros Htext Hloads Hcheck. unfold run. rewrite validate_unfold.
  destruct (file_text_returns w text Htext) as [f [Hopen Hread]].
  rewrite Hopen, Hread, Hloads, Hcheck. reflexivity.
Qed.

(** The run when the check raises anything else. *)
Lemma run_check_other (w : world) (text : string) (schema : json)
  (e : exception) :
  file_text w = Returns text ->
  json_loads text = Returns schema ->
  check_schema schema = Raises e ->
  (forall m, e <> SchemaError m) ->
  run json_loads check_schema w =
  {| trace := [Open schema_path; Close schema_path; CheckSchema schema];
     outcome := Raises e |}.
Proof.
  intros Htext Hloads Hcheck Hother. unfold run. rewrite validate_unfold.
  destruct (file_text_returns w text Htext) as [f [Hopen Hread]].
  rewrite Hopen, Hread, Hloads, Hcheck.
  destruct e; try reflexivity.
  exfalso. apply (Hother message). reflexivity.
Qed.

(** The two report lines as they reach standard output. *)
Lemma valid_line_text :
  valid_message ++ newline =
  "Schema is valid JSON Schema (Draft 2020-12)." ++ newline.
Proof. unfold valid_message. reflexivity. Qed.

Lemma invalid_line_text (m : string) :
  invalid_prefix ++ " " ++ m ++ newline =
  "Schema is invalid: " ++ m ++ newline.
Proof. unfold invalid_prefix. cbn. reflexivity. Qed.

(** The two report lines differ whatever the message is. *)
Lemma valid_line_not_invalid (m : string) :
  valid_message ++ newline <> invalid_prefix ++ " " ++ m ++ newline.
Proof. unfold valid_message, invalid_prefix. cbn. discriminate. Qed.

(** A message can be read back from the line that reports it. *)
Lemma append_newline_inj (m m' : string) :
  m ++ newline = m' ++ newline -> m = m'.
Proof.
  revert m'. induction m as [ | c m IH ]; intros [ | c' m' ] H.
  - reflexivity.
  - cbn in H. injection H as _ H. destruct m'; discriminate.
  - cbn in H. injection H as _ H. destruct m; discriminate.
  - cbn in H. injection H as -> H. f_equal. apply IH. exact H.
Qed.

Lemma invalid_line_inj (m m' : string) :
  "Schema is invalid: " ++ m ++ newline =
  invalid_prefix ++ " " ++ m' ++ newline -> m = m'.
Proof.
  rewrite invalid_line_text. cbn. intros H.
  injection H as H. apply append_newline_inj. exact H.
Qed.

(** What is printed and how the run ends depend on the world through
    [file_text] alone. *)
Lemma run_by_file_text (w1 w2 : world) :
  file_text w1 = file_text w2 ->
  printed (trace (run json_loads check_schema w1)) =
  printed (trace (run json_loads check_schema w2)) /\
  outcome (run json_loads check_schema w1) =
  outcome (run json_loads check_schema w2).
Proof.
  intros H.
  destruct (file_text w1) as [text | e] eqn:H1; symmetry in H.
  - destruct (json_loads text) as [schema | e] eqn:Hloads.
    + destruct (check_schema schema) as [ [] | e ] eqn:Hcheck.
      * rewrite (run_check_returns w1 text schema H1 Hloads Hcheck).
        rewrite (run_check_returns w2 text schema H Hloads Hcheck).
        split; reflexivity.
      * destruct e;
          try (rewrite (run_check_other w1 text schema _ H1 Hloads Hcheck),
                       (run_check_other w2 text schema _ H Hloads Hcheck)
                 by discriminate;
               split; reflexivity).
        rewrite (run_check_schema_error w1 text schema _ H1 Hloads Hcheck).
        rewrite (run_check_schema_error w2 text schema _ H Hloads Hcheck).
        split; reflexivity.
    + rewrite (run_undecodable w1 text e H1 Hloads).
      rewrite (run_undecodable w2 text e H Hloads).
      split; reflexivity.
  - destruct (run_unreadable w1 e H1) as [Ho1 [Hp1 _]].
    destruct (run_unreadable w2 e H) as [Ho2 [Hp2 _]].
    rewrite Ho1, Ho2, Hp1, Hp2. split; reflexivity.
Qed.

(** Line breaks add up over concatenation. *)
Lemma line_breaks_app (a b : string) :
  line_breaks (a ++ b) = (line_breaks a + line_breaks b)%nat.
Proof.
  induction a as [ | c a IH ]; [ reflexivity | ].
  cbn [append line_breaks]. rewrite IH. apply Nat.add_assoc.
Qed.

(** ** The two reports *)

(** C1: when the file's text decodes to a value and the metaschema check
    returns on that value, the run prints exactly the line
    "Schema is valid JSON Schema (Draft 2020-12)." to standard output. *)
Theorem valid_schema_prints_valid_line
  (w : world) (text : string) (schema : json) :
  file_text w = Returns text ->
  json_loads text = Returns schema ->
  check_schema schema = Returns tt ->
  printed (trace (run json_loads check_schema w)) =
    ["Schema is valid JSON Schema (Draft 2020-12)." ++ newline] /\
  stdout (run json_loads check_schema w) =
    "Schema is valid JSON Schema (Draft 2020-12)." ++ newline.
Proof.
  intros Htext Hloads Hcheck.
  rewrite (run_check_returns w text schema Htext Hloads Hcheck).
  unfold stdout. cbn [trace printed]. rewrite valid_line_text.
  split; reflexivity.
Qed.

(** C2: when the text decodes and the check raises a schema error with
    message [m], the error is caught, the run prints exactly
    "Schema is invalid: " followed by [m], and the process ends with
    exit status zero. *)
Theorem invalid_schema_is_reported
  (w : world) (text : string) (schema : json) (m : string) :
  file_text w = Returns text ->
  json_loads text = Returns schema ->
  check_schema schema = Raises (SchemaError m) ->
  printed (trace (run json_loads check_schema w)) =
    ["Schema is invalid: " ++ m ++ newline] /\
  stdout (run json_loads check_schema w) =
    "Schema is invalid: " ++ m ++ newline /\
  uncaught (run json_loads check_schema w) = None /\
  exit_status (run json_loads check_schema w) = 0%Z.
Proof.
  intros Htext Hloads Hcheck.
  rewrite (run_check_schema_error w text schema m Htext Hloads Hcheck).
  unfold stdout, uncaught, exit_status. cbn [trace outcome printed].
  rewrite invalid_line_text.
  repeat split; reflexivity.
Qed.

(** C3: when the file cannot be opened or read, or its text does not
    decode, the exception [e] of that call is not caught: the run ends
    with [e] uncaught and a non-zero exit status, and nothing, so neither
    report line, is printed. *)
Theorem load_failure_is_fatal (w : world) (e : exception) :
  file_text w = Raises e \/
  (exists text, file_text w = Returns text /\ json_loads text = Raises e) ->
  uncaught (run json_loads check_schema w) = Some e /\
  exit_status (run json_loads check_schema w) <> 0%Z /\
  printed (trace (run json_loads check_schema w)) = [] /\
  stdout (run json_loads check_schema w) = "".
Proof.
  intros [Hread | [text [Htext Hloads]]].
  - destruct (run_unreadable w e Hread) as [Hout [Hprinted _]].
    unfold uncaught, exit_status, stdout. rewrite Hout, Hprinted.
    cbn. repeat split; discriminate.
  - rewrite (run_undecodable w text e Htext Hloads).
    unfold uncaught, exit_status, stdout. cbn.
    repeat split; discriminate.
Qed.

(** ** Output as a whole *)

(** C4, as amended: a run that reads and decodes the file and whose check
    returns, or raises a schema error with message [m], prints exactly one
    line: the valid line, or "Schema is invalid: " followed by [m].  The
    message is printed as it is, so the output has one line break more
    than [m]: it is a single line whenever [m] holds no line break.  A run
    that fails while opening, reading or decoding the file, or whose check
    raises another exception, prints nothing to standard output. *)
Theorem one_line_per_completed_run (w : world) :
  match file_text w with
  | Raises _ =>
      printed (trace (run json_loads check_schema w)) = [] /\
      stdout (run json_loads check_schema w) = ""
  | Returns text =>
      match json_loads text with
      | Raises _ =>
          printed (trace (run json_loads check_schema w)) = [] /\
          stdout (run json_loads check_schema w) = ""
      | Returns schema =>
          match check_schema schema with
          | Returns _ =>
              printed (trace (run json_loads check_schema w)) =
                ["Schema is valid JSON Schema (Draft 2020-12)." ++ newline] /\
              stdout (run json_loads check_schema w) =
                "Schema is valid JSON Schema (Draft 2020-12)." ++ newline /\
              line_breaks (stdout (run json_loads check_schema w)) = 1%nat
          | Raises (SchemaError m) =>
              printed (trace (run json_loads check_schema w)) =
                ["Schema is invalid: " ++ m ++ newline] /\
              stdout (run json_loads check_schema w) =
                "Schema is invalid: " ++ m ++ newline /\
              line_breaks (stdout (run json_loads check_schema w)) =
                S (line_breaks m) /\
              (line_breaks m = 0%nat ->
               line_breaks (stdout (run json_loads check_schema w)) = 1%nat)
          | Raises _ =>
              printed (trace (run json_loads check_schema w)) = [] /\
              stdout (run json_loads check_schema w) = ""
          end
      end
  end.
Proof.
  destruct (file_text w) as [text | e] eqn:Htext.
  - destruct (json_loads text) as [schema | e] eqn:Hloads.
    + destruct (check_schema schema) as [ [] | e ] eqn:Hcheck.
      * rewrite (run_check_returns w text schema Htext Hloads Hcheck).
        unfold stdout. cbn [trace printed String.concat].
        rewrite valid_line_text. repeat split.
      * destruct e;
          try (rewrite (run_check_other w text schema _ Htext Hloads Hcheck)
                 by discriminate;
               split; reflexivity).
        rewrite (run_check_schema_error w text schema _ Htext Hloads Hcheck).
        unfold stdout. cbn [trace printed String.concat].
        rewrite invalid_line_text.
        assert (Hlines : line_breaks ("Schema is invalid: " ++ message
                                        ++ newline) =
                         S (line_breaks message)).
        { rewrite !line_breaks_app. cbn. rewrite Nat.add_comm. reflexivity. }
        split; [ reflexivity | ]. split; [ reflexivity | ].
        split; [ exact Hlines | ].
        intros Hnone. rewrite Hlines, Hnone. reflexivity.
    + rewrite (run_undecodable w text e Htext Hloads).
      split; reflexivity.
  - destruct (run_unreadable w e Htext) as [_ [Hprinted _]].
    unfold stdout. rewrite Hprinted. split; reflexivity.
Qed.

(** C5: two runs that find the same text behind the fixed path print the
    same output (and end the same way), whatever else differs between
    their surroundings. *)
Theorem same_file_same_output (w1 w2 : world) :
  file_text w1 = file_text w2 ->
  stdout (run json_loads check_schema w1) =
  stdout (run json_loads check_schema w2) /\
  uncaught (run json_loads check_schema w1) =
  uncaught (run json_loads check_schema w2).
Proof.
  intros H. destruct (run_by_file_text w1 w2 H) as [Hprinted Houtcome].
  unfold stdout, uncaught. rewrite Hprinted, Houtcome.
  split; reflexivity.
Qed.

(** C8: every run calls [open] exactly once, on the fixed relative path
    "fleet-combined.schema.json"; the command line and the environment
    variables have no influence on the run, and neither has what any other
    path would open. *)
Theorem reads_only_the_fixed_path (w : world) :
  opened (trace (run json_loads check_schema w)) =
    ["fleet-combined.schema.json"] /\
  (forall args env,
     run json_loads check_schema
       {| argv := args; environ := env; fs_open := fs_open w |} =
     run json_loads check_schema w) /\
  (forall w',
     run json_loads check_schema (retarget w' (fs_open w schema_path)) =
     run json_loads check_schema w).
Proof.
  split; [ | split ].
  - unfold run. rewrite validate_unfold.
    destruct (fs_open w schema_path) as [f | e]; [ | reflexivity ].
    destruct (read f) as [text | e]; [ | reflexivity ].
    destruct (json_loads text) as [schema | e]; [ | reflexivity ].
    destruct (check_schema schema) as [ [] | e ]; [ reflexivity | ].
    destruct e; reflexivity.
  - intros args env. unfold run. rewrite !validate_unfold. reflexivity.
  - intros w'. unfold run. rewrite !validate_unfold.
    unfold retarget. cbn [fs_open]. rewrite String.eqb_refl. reflexivity.
Qed.

(** C9: the valid line is printed only after the check returned, the
    invalid line with message [m] only after the check raised a schema
    error carrying [m], and no run prints both. *)
Theorem reports_exclude_each_other (w : world) :
  (In ("Schema is valid JSON Schema (Draft 2020-12)." ++ newline)
      (printed (trace (run json_loads check_schema w))) ->
   exists schema,
     checked (trace (run json_loads check_schema w)) = [schema] /\
     check_schema schema = Returns tt) /\
  (forall m,
     In ("Schema is invalid: " ++ m ++ newline)
        (printed (trace (run json_loads check_schema w))) ->
     exists schema,
       checked (trace (run json_loads check_schema w)) = [schema] /\
       check_schema schema = Raises (SchemaError m)) /\
  (forall m,
     ~ (In ("Schema is valid JSON Schema (Draft 2020-12)." ++ newline)
           (printed (trace (run json_loads check_schema w))) /\
        In ("Schema is invalid: " ++ m ++ newline)
           (printed (trace (run json_loads check_schema w))))).
Proof.
  rewrite <- valid_line_text.
  unfold run. rewrite validate_unfold.
  destruct (fs_open w schema_path) as [f | e];
    [ | cbn; intuition ].
  destruct (read f) as [text | e]; [ | cbn; intuition ].
  destruct (json_loads text) as [schema | e]; [ | cbn; intuition ].
  destruct (check_schema schema) as [ [] | e ] eqn:Hcheck.
  - cbn [trace printed checked In]. repeat split.
    + intros _. exists schema. auto.
    + intros m [H | []]. rewrite <- invalid_line_text in H.
      exfalso. exact (valid_line_not_invalid m H).
    + intros m [_ [H | []]]. rewrite <- invalid_line_text in H.
      exact (valid_line_not_invalid m H).
  - destruct e; try (cbn; intuition; fail).
    cbn [trace printed checked In]. repeat split.
    + intros [H | []]. exfalso.
      exact (valid_line_not_invalid message (eq_sym H)).
    + intros m [H | []]. symmetry in H.
      apply invalid_line_inj in H. subst m. exists schema. auto.
    + intros m [[H | []] _].
      exact (valid_line_not_invalid message (eq_sym H)).
Qed.


End Properties.

(** * The two documents the spec names *)

Section NamedDocuments.

Variable json_loads : string -> result json.
Variable rest : json -> result unit.
Variable describe : json -> {m : string | m <> ""}.

(** C6: on the document [{"type": 123}] the metaschema check raises a
    schema error, and the run prints "Schema is invalid: " followed by the
    error's non-empty message and ends with exit status zero. *)
Theorem type_123_is_reported_invalid (w : world) :
  file_text w = Returns type_123_text ->
  json_loads type_123_text = Returns type_123 ->
  exists m,
    m <> "" /\
    metaschema_check rest describe type_123 = Raises (SchemaError m) /\
    stdout (run json_loads (metaschema_check rest describe) w) =
      "Schema is invalid: " ++ m ++ newline /\
    exit_status (run json_loads (metaschema_check rest describe) w) = 0%Z.
Proof.
  intros Htext Hloads.
  destruct (describe (JInt 123)) as [m Hmessage] eqn:Hdescribe.
  assert (Hcheck : metaschema_check rest describe type_123 =
                   Raises (SchemaError m)).
  { cbn. rewrite Hdescribe. reflexivity. }
  exists m.
  rewrite (run_check_schema_error json_loads _ w _ _ _ Htext Hloads Hcheck).
  unfold stdout, exit_status. cbn [trace outcome printed].
  rewrite invalid_line_text.
  split; [ exact Hmessage | ].
  split; [ exact Hcheck | ].
  split; reflexivity.
Qed.

(** C7: on the document [{}] the metaschema check returns, and the run
    prints the line "Schema is valid JSON Schema (Draft 2020-12).". *)
Theorem empty_object_is_reported_valid (w : world) :
  file_text w = Returns empty_object_text ->
  json_loads empty_object_text = Returns empty_object ->
  metaschema_check rest describe empty_object = Returns tt /\
  stdout (run json_loads (metaschema_check rest describe) w) =
    "Schema is valid JSON Schema (Draft 2020-12)." ++ newline.
Proof.
  intros Htext Hloads.
  assert (Hcheck : metaschema_check rest describe empty_object = Returns tt)
    by reflexivity.
  rewrite (run_check_returns json_loads _ w _ _ Htext Hloads Hcheck).
  split; [ exact Hcheck | ].
  unfold stdout. cbn [trace printed]. rewrite valid_line_text. reflexivity.
Qed.

End NamedDocuments.

(** * The properties at sample inputs *)

(** The boolean schema [true] is reported valid. *)
Lemma valid_schema_prints_valid_line_at_true :
  file_text (world_with [] "true") = Returns "true" /\
  sample_loads "true" = Returns (JBool true) /\
  sample_check (JBool true) = Returns tt /\
  stdout (run sample_loads sample_check (world_with [] "true")) =
    "Schema is valid JSON Schema (Draft 2020-12)." ++ newline.
Proof.
  split; [ reflexivity | ]. split; [ reflexivity | ]. split; [ reflexivity | ].
  apply (valid_schema_prints_valid_line sample_loads sample_check
           (world_with [] "true") "true" (JBool true));
    reflexivity.
Defined.

(** The document of P2 is reported invalid with the sample validator's
    message. *)
Lemma invalid_schema_is_reported_at_type_123 :
  file_text (world_with [] type_123_text) = Returns type_123_text /\
  sample_loads type_123_text = Returns type_123 /\
  sample_check type_123 =
    Raises (SchemaError "not valid under any of the given schemas") /\
  stdout (run sample_loads sample_check (world_with [] type_123_text)) =
    "Schema is invalid: not valid under any of the given schemas" ++ newline /\
  exit_status (run sample_loads sample_check (world_with [] type_123_text)) =
    0%Z.
Proof.
  split; [ reflexivity | ]. split; [ reflexivity | ]. split; [ reflexivity | ].
  pose proof (invalid_schema_is_reported sample_loads sample_check
                (world_with [] type_123_text) type_123_text type_123
                "not valid under any of the given schemas"
                eq_refl eq_refl eq_refl) as [_ [Hout [_ Hexit]]].
  split; [ exact Hout | exact Hexit ].
Defined.

(** The truncated document of P3 ends the run with the decoder's
    exception. *)
Lemma load_failure_is_fatal_at_truncated_text :
  file_text (world_with [] truncated_text) = Returns truncated_text /\
  sample_loads truncated_text = Raises (JSONDecodeError "Expecting value") /\
  uncaught (run sample_loads sample_check (world_with [] truncated_text)) =
    Some (JSONDecodeError "Expecting value") /\
  exit_status (run sample_loads sample_check (world_with [] truncated_text))
    <> 0%Z /\
  stdout (run sample_loads sample_check (world_with [] truncated_text)) = "".
Proof.
  split; [ reflexivity | ]. split; [ reflexivity | ].
  pose proof (load_failure_is_fatal sample_loads sample_check
                (world_with [] truncated_text)
                (JSONDecodeError "Expecting value")
                (or_intror
                   (ex_intro _ truncated_text (conj eq_refl eq_refl))))
    as [Hunc [Hexit [_ Hout]]].
  split; [ exact Hunc | ]. split; [ exact Hexit | exact Hout ].
Defined.

(** C4 as stated fails where the file is missing: that run prints no line
    at all.  It fails as well where the schema error's message runs over
    two lines: that run prints two. *)
Lemma some_runs_do_not_print_one_line :
  (uncaught (run sample_loads sample_check empty_world) =
     Some (OSError "No such file or directory") /\
   stdout (run sample_loads sample_check empty_world) = "" /\
   length (printed (trace (run sample_loads sample_check empty_world)))
     <> 1%nat /\
   line_breaks (stdout (run sample_loads sample_check empty_world))
     <> 1%nat) /\
  (exit_status (run sample_loads two_line_check
                  (world_with [] empty_object_text)) = 0%Z /\
   line_breaks (stdout (run sample_loads two_line_check
                          (world_with [] empty_object_text))) = 2%nat).
Proof.
  split.
  - split; [ reflexivity | ]. split; [ reflexivity | ].
    split; cbn; discriminate.
  - split; reflexivity.
Qed.

(** Two runs on the same file, one started with arguments and environment
    variables and one without. *)
Lemma same_file_same_output_across_surroundings :
  file_text (world_with ["--strict"; "other.json"] empty_object_text) =
  file_text {| argv := []; environ := [("LANG", "C")];
               fs_open := fun _ =>
                 Returns {| read := Returns empty_object_text |} |} /\
  stdout (run sample_loads sample_check
            (world_with ["--strict"; "other.json"] empty_object_text)) =
  stdout (run sample_loads sample_check
            {| argv := []; environ := [("LANG", "C")];
               fs_open := fun _ =>
                 Returns {| read := Returns empty_object_text |} |}).
Proof.
  split; [ reflexivity | ].
  apply (same_file_same_output sample_loads sample_check
           (world_with ["--strict"; "other.json"] empty_object_text)
           {| argv := []; environ := [("LANG", "C")];
              fs_open := fun _ =>
                Returns {| read := Returns empty_object_text |} |}).
  reflexivity.
Defined.

(** The document of P2 under the sample decoder and messages. *)
Lemma type_123_is_reported_invalid_sample :
  exists m,
    m <> "" /\
    sample_check type_123 = Raises (SchemaError m) /\
    stdout (run sample_loads sample_check (world_with [] type_123_text)) =
      "Schema is invalid: " ++ m ++ newline /\
    exit_status (run sample_loads sample_check (world_with [] type_123_text))
      = 0%Z.
Proof.
  apply (type_123_is_reported_invalid sample_loads sample_rest
           sample_describe (world_with [] type_123_text)).
  - reflexivity.
  - reflexivity.
Defined.

(** The document of P6 under the sample decoder. *)
Lemma empty_object_is_reported_valid_sample :
  sample_check empty_object = Returns tt /\
  stdout (run sample_loads sample_check (world_with [] empty_object_text)) =
    "Schema is valid JSON Schema (Draft 2020-12)." ++ newline.
Proof.
  apply (empty_object_is_reported_valid sample_loads sample_rest
           sample_describe (world_with [] empty_object_text));
    reflexivity.
Defined.



(** * Further properties of the script *)

Section FurtherProperties.

Variable json_loads : string -> result json.
Variable check_schema : json -> result unit.

(** X1: once [open] has answered with a stream, the stream is closed
    exactly once on every path, whether reading and decoding went well or
    raised, and the close comes before the check is called or anything is
    printed; nothing is opened or closed after that.  When [open] itself
    raises, there is nothing to close. *)
Theorem stream_closed_before_check (w : world) :
  match fs_open w schema_path with
  | Returns _ =>
      exists rest,
        trace (run json_loads check_schema w) =
          Open schema_path :: Close schema_path :: rest /\
        opened rest = [] /\ closed rest = []
  | Raises _ =>
      trace (run json_loads check_schema w) = [Open schema_path]
  end.
Proof.
  unfold run. rewrite validate_unfold.
  destruct (fs_open w schema_path) as [f | e]; [ | reflexivity ].
  destruct (read f) as [text | e]; [ | exists []; auto ].
  destruct (json_loads text) as [schema | e]; [ | exists []; auto ].
  destruct (check_schema schema) as [ [] | e ].
  - eexists. split; [ reflexivity | split; reflexivity ].
  - destruct e; eexists; (split; [ reflexivity | split; reflexivity ]).
Qed.

(** X2: when the file cannot be read or its text does not decode, the
    check is never called, so the run is the same whichever validator is
    installed. *)
Theorem validator_not_consulted_on_load_failure
  (check_schema' : json -> result unit) (w : world) (e : exception) :
  file_text w = Raises e \/
  (exists text, file_text w = Returns text /\ json_loads text = Raises e) ->
  checked (trace (run json_loads check_schema w)) = [] /\
  run json_loads check_schema' w = run json_loads check_schema w.
Proof.
  intros [Hread | [text [Htext Hloads]]].
  - split.
    + apply (run_unreadable json_loads check_schema w e Hread).
    + unfold run. rewrite !validate_unfold.
      destruct (file_text_raises w e Hread) as [Hopen | [f [Hopen Hf]]].
      * rewrite Hopen. reflexivity.
      * rewrite Hopen, Hf. reflexivity.
  - rewrite !(run_undecodable json_loads _ w text e Htext Hloads).
    split; reflexivity.
Qed.

(** X3: the message of a schema error is printed as it is, so the output
    of a run that reports an invalid schema has one line break more than
    the message holds: it is one line exactly when the message has no line
    break.  A run that reports a valid schema prints one line, and a run
    that ends with another exception of the check prints none. *)
Theorem output_lines_follow_message
  (w : world) (text : string) (schema : json) :
  file_text w = Returns text ->
  json_loads text = Returns schema ->
  match check_schema schema with
  | Returns _ =>
      line_breaks (stdout (run json_loads check_schema w)) = 1%nat
  | Raises (SchemaError m) =>
      line_breaks (stdout (run json_loads check_schema w)) =
        S (line_breaks m)
  | Raises _ =>
      line_breaks (stdout (run json_loads check_schema w)) = 0%nat
  end.
Proof.
  intros Htext Hloads.
  destruct (check_schema schema) as [ [] | e ] eqn:Hcheck.
  - rewrite (run_check_returns json_loads _ w text schema Htext Hloads Hcheck).
    reflexivity.
  - destruct e;
      try (rewrite (run_check_other json_loads _ w text schema _
                      Htext Hloads Hcheck) by discriminate;
           reflexivity).
    rewrite (run_check_schema_error json_loads _ w text schema _
               Htext Hloads Hcheck).
    unfold stdout. cbn [trace printed String.concat].
    rewrite invalid_line_text, !line_breaks_app.
    cbn. rewrite Nat.add_comm. reflexivity.
Qed.

(** X4: the exit status is zero exactly when the file was read, its text
    decoded, and the check either returned or raised a schema error; so a
    zero status says that a report was printed, not that the schema is
    valid. *)
Theorem exit_zero_iff_reported (w : world) :
  exit_status (run json_loads check_schema w) = 0%Z <->
  exists text schema,
    file_text w = Returns text /\
    json_loads text = Returns schema /\
    (check_schema schema = Returns tt \/
     exists m, check_schema schema = Raises (SchemaError m)).
Proof.
  split.
  - unfold exit_status, run, file_text. rewrite validate_unfold.
    destruct (fs_open w schema_path) as [f | e]; [ | discriminate ].
    destruct (read f) as [text | e]; [ | discriminate ].
    destruct (json_loads text) as [schema | e] eqn:Hloads; [ | discriminate ].
    destruct (check_schema schema) as [ [] | e ] eqn:Hcheck.
    + intros _. exists text, schema. auto.
    + destruct e; try discriminate.
      intros _. exists text, schema. eauto.
  - intros [text [schema [Htext [Hloads [Hcheck | [m Hcheck]]]]]].
    + rewrite (run_check_returns json_loads _ w text schema
                 Htext Hloads Hcheck).
      reflexivity.
    + rewrite (run_check_schema_error json_loads _ w text schema m
                 Htext Hloads Hcheck).
      reflexivity.
Qed.

End FurtherProperties.

(** The truncated document never reaches either validator. *)
Lemma validator_not_consulted_at_truncated_text :
  file_text (world_with [] truncated_text) = Returns truncated_text /\
  sample_loads truncated_text = Raises (JSONDecodeError "Expecting value") /\
  checked (trace (run sample_loads sample_check
                    (world_with [] truncated_text))) = [] /\
  run sample_loads two_line_check (world_with [] truncated_text) =
  run sample_loads sample_check (world_with [] truncated_text).
Proof.
  split; [ reflexivity | ]. split; [ reflexivity | ].
  exact (validator_not_consulted_on_load_failure sample_loads sample_check
           two_line_check (world_with [] truncated_text)
           (JSONDecodeError "Expecting value")
           (or_intror (ex_intro _ truncated_text (conj eq_refl eq_refl)))).
Defined.

(** A message of two lines makes a report of two lines. *)
Lemma output_lines_follow_message_two_lines :
  file_text (world_with [] empty_object_text) = Returns empty_object_text /\
  sample_loads empty_object_text = Returns empty_object /\
  line_breaks (stdout (run sample_loads two_line_check
                         (world_with [] empty_object_text))) = 2%nat.
Proof.
  split; [ reflexivity | ]. split; [ reflexivity | ].
  exact (output_lines_follow_message sample_loads two_line_check
           (world_with [] empty_object_text) empty_object_text empty_object
           eq_refl eq_refl).
Defined.
